(** * weave/orm: buckets over a key/value store, and the last-modified decorator

    A shallow embedding of [orm.Bucket] (Get, Save, Delete, updateIndexes,
    WithIndex, GetIndexed, readRefs) and of the last-modified model bucket
    (Bind, One, ByIndex, Put), with the properties of their error paths. *)

From Stdlib Require Import ZArith Strings.Ascii Strings.String Strings.Byte List.
From stdpp Require Import base countable gmap strings list fin_maps.

Local Open Scope Z_scope.

(** ** Bytes, errors, panics *)

(** Go's [[]byte]. *)
Abbreviation bytes := (list byte).

#[global] Instance byte_eq_dec : EqDecision byte := Byte.byte_eq_dec.

#[global] Instance byte_countable : Countable byte :=
  inj_countable Byte.to_N Byte.of_N Byte.of_to_N.

(** Go's [error]: [None] is the nil error, [Some msg] an error value. *)
Abbreviation error := (option string).

(** A call either returns or panics with a message. *)
Inductive result (A : Type) : Type :=
| Ok (a : A)
| Panic (msg : string).
Arguments Ok {A} a.
Arguments Panic {A} msg.

Definition panics {A} (r : result A) : Prop :=
  match r with Panic _ => True | Ok _ => False end.

(** ** The key/value store

    [weave.KVStore] is consumed, not implemented, by the orm package.  It is
    a finite map from keys to values together with the log of the calls it
    has received, most recent first; [Get] answers nil iff the key is
    absent. *)

Inductive Op : Type :=
| OpGet (k : bytes)
| OpSet (k v : bytes)
| OpDelete (k : bytes).

Record KVStore : Type := mkStore {
  data : gmap bytes bytes;
  trace : list Op
}.

(** Code running against the store: state passing. *)
Definition St (A : Type) : Type := KVStore -> A * KVStore.

Definition ret {A} (a : A) : St A := fun db => (a, db).

Definition bind {A B} (c : St A) (k : A -> St B) : St B :=
  fun db => let (a, db') := c db in k a db'.

Notation "'do' x <- c ; k" := (bind c (fun x => k))
  (at level 10, x name, c at level 100, k at level 200).
Notation "'do' ' pat <- c ; k" := (bind c (fun x => match x with pat => k end))
  (at level 10, pat pattern, c at level 100, k at level 200).

Definition kvGet (k : bytes) : St (option bytes) :=
  fun db => (data db !! k, mkStore (data db) (OpGet k :: trace db)).

Definition kvSet (k v : bytes) : St unit :=
  fun db => (tt, mkStore (<[k := v]> (data db)) (OpSet k v :: trace db)).

Definition kvDelete (k : bytes) : St unit :=
  fun db => (tt, mkStore (delete k (data db)) (OpDelete k :: trace db)).

(** ** Objects

    [orm.Object] and [orm.Cloneable] are interfaces: a key, a value that
    validates and (un)marshals itself, and a deep copy.  [Unmarshal] fills
    the receiver's value in place, so here it returns the filled object. *)

Class Object (O : Type) : Type := {
  Key : O -> bytes;
  SetKey : bytes -> O -> O;
  Validate : O -> error;
  Marshal : O -> bytes + string;
  Unmarshal : O -> bytes -> O + string;
  Clone : O -> O;
  Key_SetKey : forall k o, Key (SetKey k o) = k
}.

(** ** Buckets *)

(** Go maps are references: a bucket holds the address of its index map (or
    nil), and the maps live in a heap. *)
Abbreviation loc := positive.

Section Bucket.
Context {O : Type} `{!Object O}.

(** [orm.Indexer], the function from an object to its index keys. *)
Variable Indexer : Type.

Record Index : Type := NewIndex {
  iname : string;
  indexer : Indexer;
  unique : bool
}.

Abbreviation heap := (gmap loc (gmap string Index)).

(** The methods of [orm.Index]; index.go is not among these sources, so
    they are parameters of the development. *)
Variable Update : Index -> option O -> option O -> St error.
Variable GetAt : Index -> bytes -> St (list bytes * error).

Record Bucket : Type := mkBucket {
  name : string;
  prefix : bytes;
  proto : O;
  indexes : option loc
}.




(** [b.indexes] read as a map: a nil map reads as the empty map. *)
Definition bucketIndexes (h : heap) (b : Bucket) : gmap string Index :=
  match indexes b with
  | None => ∅
  | Some l => default ∅ (h !! l)
  end.

Definition DBKey (b : Bucket) (key : bytes) : bytes := prefix b ++ key.

Definition Get (b : Bucket) (key : bytes) : St (option O * error) :=
  let dbkey := DBKey b key in
  do bz <- kvGet dbkey;
  match bz with
  | None => ret (None, None)
  | Some bz =>
      let obj := Clone (proto b) in
      match Unmarshal obj bz with
      | inr e => ret (None, Some e)
      | inl obj => ret (Some (SetKey key obj), None)
      end
  end.

(** What [Get] answers for [key] when the store holds [d]. *)
Definition decode (b : Bucket) (key : bytes) (d : gmap bytes bytes)
  : option O * error :=
  match d !! DBKey b key with
  | None => (None, None)
  | Some bz =>
      match Unmarshal (Clone (proto b)) bz with
      | inr e => (None, Some e)
      | inl obj => (Some (SetKey key obj), None)
      end
  end.

(** [for _, idx := range b.indexes], visiting the entries in the order
    [ord]; Go leaves that order unspecified. *)
Fixpoint rangeUpdate (ord : list (string * Index)) (prev model : option O)
  : St error :=
  match ord with
  | [] => ret None
  | (_, idx) :: rest =>
      do err <- Update idx prev model;
      match err with
      | Some e => ret (Some e)
      | None => rangeUpdate rest prev model
      end
  end.

(** An index whose [Update] leaves the entry stored under [K] as it is. *)
Definition keepsKey (K : bytes) (idx : Index) : Prop :=
  forall prev model db,
    data (snd (Update idx prev model db)) !! K = data db !! K.

Definition updateIndexes (h : heap) (ord : list (string * Index))
    (b : Bucket) (key : bytes) (model : option O) : St error :=
  if (0 <? size (bucketIndexes h b))%nat then
    do '(prev, err) <- Get b key;
    match err with
    | Some e => ret (Some e)
    | None => rangeUpdate ord prev model
    end
  else ret None.

Definition Save (h : heap) (ord : list (string * Index))
    (b : Bucket) (model : O) : St error :=
  match Validate model with
  | Some e => ret (Some e)
  | None =>
      match Marshal model with
      | inr e => ret (Some e)
      | inl bz =>
          do err <- updateIndexes h ord b (Key model) (Some model);
          match err with
          | Some e => ret (Some e)
          | None =>
              let dbkey := prefix b ++ Key model in
              do _ <- kvSet dbkey bz;
              ret None
          end
      end
  end.

Definition Delete (h : heap) (ord : list (string * Index))
    (b : Bucket) (key : bytes) : St error :=
  do err <- updateIndexes h ord b key None;
  match err with
  | Some e => ret (Some e)
  | None =>
      let dbkey := DBKey b key in
      do _ <- kvDelete dbkey;
      ret None
  end.

(** The loop of [readRefs]; a nil [Object] is [None]. *)
Fixpoint readRefsFrom (b : Bucket) (refs : list bytes)
  : St (list (option O) * error) :=
  match refs with
  | [] => ret ([], None)
  | key :: rest =>
      do '(obj, err) <- Get b key;
      match err with
      | Some e => ret ([], Some e)
      | None =>
          do '(objs, err') <- readRefsFrom b rest;
          match err' with
          | Some e => ret ([], Some e)
          | None => ret (obj :: objs, None)
          end
      end
  end.

Definition readRefs (b : Bucket) (refs : list bytes)
  : St (list (option O) * error) :=
  if (length refs =? 0)%nat then ret ([], None) else readRefsFrom b refs.

Definition GetIndexed (h : heap) (b : Bucket) (nm : string) (key : bytes)
  : St (list (option O) * error) :=
  match bucketIndexes h b !! nm with
  | None => ret ([], Some ("No such index: " +:+ nm))
  | Some idx =>
      do '(refs, err) <- GetAt idx key;
      match err with
      | Some e => ret ([], Some e)
      | None => readRefs b refs
      end
  end.

(** A dangling reference reported as an error: whenever the index named
    [nm] answers with references of which one has no record in the store,
    [GetIndexed] returns a non-nil error. *)
Definition danglingIsError (h : heap) (b : Bucket) (nm : string)
    (key : bytes) (db : KVStore) : Prop :=
  forall idx refs db1,
    bucketIndexes h b !! nm = Some idx ->
    GetAt idx key db = ((refs, None), db1) ->
    (exists k, k ∈ refs /\ data db1 !! DBKey b k = None) ->
    exists e, snd (fst (GetIndexed h b nm key db)) = Some e.

(** The bucket's index map, when it has one, lives in the heap. *)
Definition allocated (h : heap) (b : Bucket) : Prop :=
  forall l, indexes b = Some l -> l ∈ dom h.

(** [make(map[string]Index, n)] and [m[n] = i] on the heap. *)
Definition mapMake (h : heap) : loc * heap :=
  let l := fresh (dom h) in (l, <[l := ∅]> h).

Definition mapAssign (l : loc) (n : string) (i : Index) (h : heap) : heap :=
  alter (fun m => <[n := i]> m) l h.

(** [for n, i := range b.indexes { indexes[n] = i }] *)
Fixpoint copyInto (l : loc) (ord : list (string * Index)) (h : heap) : heap :=
  match ord with
  | [] => h
  | (n, i) :: rest => copyInto l rest (mapAssign l n i h)
  end.

Definition WithIndex (ord : list (string * Index)) (b : Bucket)
    (nm : string) (ixr : Indexer) (uniq : bool) (h : heap)
  : result (Bucket * heap) :=
  match bucketIndexes h b !! nm with
  | Some _ => Panic ("Index " +:+ nm +:+ " registered twice")
  | None =>
      let iname := name b +:+ "_" +:+ nm in
      let add := NewIndex iname ixr uniq in
      let '(l, h) := mapMake h in
      let h := copyInto l ord h in
      let h := mapAssign l nm add h in
      Ok ({| name := name b; prefix := prefix b; proto := proto b;
             indexes := Some l |}, h)
  end.

End Bucket.

Arguments Bucket O : clear implicits.
Arguments NewIndex {Indexer} iname indexer unique.
Arguments iname {Indexer} i.
Arguments indexer {Indexer} i.
Arguments unique {Indexer} i.
Arguments bucketIndexes {O Indexer} h b.
Arguments rangeUpdate {O Indexer} Update ord prev model.
Arguments keepsKey {O Indexer} Update K idx.
Arguments danglingIsError {O _ Indexer} GetAt h b nm key db.
Arguments allocated {O Indexer} h b.
Arguments updateIndexes {O _ Indexer} Update h ord b key model.
Arguments Save {O _ Indexer} Update h ord b model.
Arguments Delete {O _ Indexer} Update h ord b key.
Arguments GetIndexed {O _ Indexer} GetAt h b nm key.
Arguments mapMake {Indexer} h.
Arguments mapAssign {Indexer} l n i h.
Arguments copyInto {Indexer} l ord h.
Arguments WithIndex {O Indexer} ord b nm ixr uniq h.

(** ** Querying by pattern *)

Section BucketQueries.
Context {O : Type} `{!Object O}.
Variable Indexer : Type.

(** [Index.GetLike], another method of index.go. *)
Variable GetLike : Index Indexer -> O -> St (list bytes * error).

Definition GetIndexedLike (h : gmap loc (gmap string (Index Indexer)))
    (b : Bucket O) (nm : string) (pattern : O)
  : St (list (option O) * error) :=
  match bucketIndexes h b !! nm with
  | None => ret ([], Some ("No such index: " +:+ nm))
  | Some idx =>
      do '(refs, err) <- GetLike idx pattern;
      match err with
      | Some e => ret ([], Some e)
      | None => readRefs b refs
      end
  end.

End BucketQueries.

Arguments GetIndexedLike {O _ Indexer} GetLike h b nm pattern.

(** ** The last-modified model bucket (orm/xxx.go) *)

Module LastModified.

(** What the decorator can touch: the store and standard output. *)
Record World : Type := mkWorld {
  db : KVStore;
  stdout : list string
}.

Definition IO (A : Type) : Type := World -> A * World.

Definition Println (line : string) : IO unit :=
  fun w => (tt, mkWorld (db w) (stdout w ++ [line])).

Section Decorator.
(** [context.Context], [orm.Model], [orm.ModelSlicePtr], [weave.Metadata]
    and [weave.QueryRouter] come from outside this file. *)
Variables Context Model ModelSlicePtr Metadata QueryRouter : Type.

(** [weave.GetHeight]: the block height of the context, and whether there
    is one. *)
Variable GetHeight : Context -> Z * bool.

(** [m.(metadator)] followed by [GetMetadata()]: [None] when the model has
    no such method, otherwise the (possibly nil) metadata pointer. *)
Variable metadator : Model -> option (option Metadata).

(** How [fmt] renders the metadata pointer. *)
Variable showMeta : option Metadata -> string.

(** The [orm.ModelBucket] interface.  [One] and [ByIndex] fill [dest] in
    place, so they return it. *)
Record ModelBucket : Type := mkModelBucket {
  mbOne : bytes -> Model -> IO (Model * error);
  mbByIndex : string -> bytes -> ModelSlicePtr ->
              IO (ModelSlicePtr * (list bytes * error));
  mbPut : bytes -> Model -> IO (bytes * error);
  mbDelete : bytes -> IO error;
  mbHas : bytes -> IO error;
  mbRegister : string -> QueryRouter -> QueryRouter
}.

Record unboundLastModifiedBucket : Type := mkUnbound {
  ubucket : ModelBucket
}.

Record lastModifiedBucket : Type := mkBound {
  blockHeight : Z;
  bucket : ModelBucket
}.

Definition WithLastModified (b : ModelBucket) : unboundLastModifiedBucket :=
  {| ubucket := b |}.

Definition Bind (u : unboundLastModifiedBucket) (ctx : Context)
  : result lastModifiedBucket :=
  let '(height, ok) := GetHeight ctx in
  if negb ok then Panic "block height not present in the context"
  else Ok {| blockHeight := height; bucket := ubucket u |}.

Definition One (b : lastModifiedBucket) (key : bytes) (dest : Model)
  : IO (Model * error) :=
  mbOne (bucket b) key dest.

Definition ByIndex (b : lastModifiedBucket) (indexName : string)
    (key : bytes) (dest : ModelSlicePtr)
  : IO (ModelSlicePtr * (list bytes * error)) :=
  mbByIndex (bucket b) indexName key dest.

Definition Put (b : lastModifiedBucket) (key : bytes) (m : Model)
  : IO (bytes * error) :=
  fun w =>
    let w :=
      match metadator m with
      | Some meta =>
          (* TODO: set block height *)
          snd (Println ("meta = b.blockHeight " +:+ showMeta meta) w)
      | None => w
      end in
    mbPut (bucket b) key m w.

Definition Delete (b : lastModifiedBucket) (key : bytes) : IO error :=
  mbDelete (bucket b) key.

Definition Has (b : lastModifiedBucket) (key : bytes) : IO error :=
  mbHas (bucket b) key.

Definition Register (b : lastModifiedBucket) (nm : string) (r : QueryRouter)
  : QueryRouter :=
  mbRegister (bucket b) nm r.

(** A bound bucket is again a [ModelBucket]. *)
Definition asModelBucket (b : lastModifiedBucket) : ModelBucket :=
  {| mbOne := One b; mbByIndex := ByIndex b; mbPut := Put b;
     mbDelete := Delete b; mbHas := Has b; mbRegister := Register b |}.

End Decorator.

Arguments mkModelBucket {Model ModelSlicePtr QueryRouter}.
Arguments mbOne {Model ModelSlicePtr QueryRouter} m.
Arguments mbByIndex {Model ModelSlicePtr QueryRouter} m.
Arguments mbPut {Model ModelSlicePtr QueryRouter} m.
Arguments mkUnbound {Model ModelSlicePtr QueryRouter}.
Arguments ubucket {Model ModelSlicePtr QueryRouter} u.
Arguments mkBound {Model ModelSlicePtr QueryRouter}.
Arguments blockHeight {Model ModelSlicePtr QueryRouter} l.
Arguments bucket {Model ModelSlicePtr QueryRouter} l.
Arguments Bind {Context Model ModelSlicePtr QueryRouter} GetHeight u ctx.
Arguments One {Model ModelSlicePtr QueryRouter} b key dest.
Arguments ByIndex {Model ModelSlicePtr QueryRouter} b indexName key dest.
Arguments Put {Model ModelSlicePtr Metadata QueryRouter} metadator showMeta b key m.

End LastModified.

(** ** A small instance to run the code on

    A keyed object whose value is a short byte string, and a unique index
    that keeps one primary key under each index key. *)

Module Sample.

Record SimpleObj : Type := mkObj {
  okey : bytes;
  ovalue : bytes
}.

#[global] Instance SimpleObj_Object : Object SimpleObj := {|
  Key := okey;
  SetKey k o := mkObj k (ovalue o);
  Validate o :=
    if (length (okey o) =? 0)%nat then Some "missing key"%string else None;
  Marshal o :=
    if (4 <? length (ovalue o))%nat then inr "value too long"%string
    else inl (ovalue o);
  Unmarshal o bz :=
    if (4 <? length bz)%nat then inr "malformed record"%string
    else inl (mkObj (okey o) bz);
  Clone o := mkObj (okey o) (ovalue o);
  Key_SetKey k o := eq_refl
|}.

Abbreviation Indexer := (SimpleObj -> bytes).

Definition indexKey (idx : Index Indexer) (k : bytes) : bytes :=
  list_byte_of_string (iname idx) ++ [x3a] ++ k.

Definition insertRef (idx : Index Indexer) (m : SimpleObj) : St error :=
  let k := indexKey idx (indexer idx m) in
  do cur <- kvGet k;
  match cur with
  | Some pk =>
      if bool_decide (pk = okey m) then ret None
      else ret (Some "duplicate key"%string)
  | None => do _ <- kvSet k (okey m); ret None
  end.

Definition removeRef (idx : Index Indexer) (p : SimpleObj) : St error :=
  do _ <- kvDelete (indexKey idx (indexer idx p)); ret None.

Definition Update (idx : Index Indexer) (prev model : option SimpleObj)
  : St error :=
  match prev, model with
  | None, None => ret None
  | None, Some m => insertRef idx m
  | Some p, None => removeRef idx p
  | Some p, Some m =>
      if bool_decide (indexer idx p = indexer idx m) then ret None
      else
        do err <- insertRef idx m;
        match err with
        | Some e => ret (Some e)
        | None => removeRef idx p
        end
  end.

Definition GetAt (idx : Index Indexer) (k : bytes) : St (list bytes * error) :=
  do cur <- kvGet (indexKey idx k);
  match cur with
  | Some pk => ret ([pk], None)
  | None => ret ([], None)
  end.

Definition str (s : string) : bytes := list_byte_of_string s.

Definition selfIndex : Index Indexer := NewIndex "acct_self" okey true.
Definition nameIndex : Index Indexer := NewIndex "acct_name" ovalue true.

(** The bucket "acct" with indexes "self" and "name", its map at address 1. *)
Definition acct : Bucket SimpleObj :=
  {| name := "acct"; prefix := str "acct:"; proto := mkObj [] [];
     indexes := Some 1%positive |}.

Definition acctIndexes : gmap string (Index Indexer) :=
  <["self" := selfIndex]> (<["name" := nameIndex]> ∅).

Definition acctHeap : gmap loc (gmap string (Index Indexer)) :=
  {[ 1%positive := acctIndexes ]}.

(** The same bucket before any index was registered. *)
Definition plain : Bucket SimpleObj :=
  {| name := "acct"; prefix := str "acct:"; proto := mkObj [] [];
     indexes := None |}.

Definition emptyStore : KVStore := mkStore ∅ [].

(** A store holding the record 01 ("al") and its two index entries. *)
Definition aliceStore : KVStore :=
  mkStore (<[str "acct:" ++ [x01] := str "al"]>
           (<[str "acct_self:" ++ [x01] := [x01]]>
            (<[str "acct_name:al" := [x01]]> ∅))) [].

(** A store whose "name" index lists key 01, with no record at 01. *)
Definition danglingStore : KVStore :=
  mkStore (<[str "acct_name:al" := [x01]]> ∅) [].

(** A second account with the name of the first, and a visiting order of
    the two indexes. *)
Definition bob : SimpleObj := mkObj [x02] (str "al").

Definition ordA : list (string * Index Indexer) :=
  [("self"%string, selfIndex); ("name"%string, nameIndex)].

(** A context either carries a block height or does not. *)
Definition Context : Type := option Z.

Definition GetHeight (ctx : Context) : Z * bool :=
  match ctx with
  | Some height => (height, true)
  | None => (0, false)
  end.

(** Modelled from the spec: the metadata of a record, with the "last
    modified at height H" field the decorator is meant to stamp; the
    declaration of [weave.Metadata] is not among these sources. *)
Record Metadata : Type := mkMeta {
  Schema : Z;
  LastModified : Z
}.

Record Channel : Type := mkChannel {
  chMeta : option Metadata;
  chMemo : bytes
}.

Definition metadator (m : Channel) : option (option Metadata) :=
  Some (chMeta m).

Definition showMeta (m : option Metadata) : string :=
  match m with
  | None => "<nil>"
  | Some _ => "&{}"
  end.

Definition encodeHeight (m : Channel) : bytes :=
  match chMeta m with
  | None => []
  | Some meta =>
      match Byte.of_N (Z.to_N (LastModified meta mod 256)) with
      | Some b => [b]
      | None => []
      end
  end.

(** A wrapped bucket that stores, under the key, the record's last-modified
    height followed by its memo. *)
Definition baseBucket : LastModified.ModelBucket Channel (list Channel) unit :=
  LastModified.mkModelBucket
    (fun key dest w => ((dest, None), w))
    (fun nm key dest w => ((dest, ([], None)), w))
    (fun key m w =>
       ((key, None),
        LastModified.mkWorld
          (snd (kvSet key (encodeHeight m ++ chMemo m) (LastModified.db w)))
          (LastModified.stdout w)))
    (fun key w => (None, w))
    (fun key w => (None, w))
    (fun nm r => r).

(** An index that also refuses to drop an entry it does not hold. *)
Definition strictUpdate (idx : Index Indexer) (prev model : option SimpleObj)
  : St error :=
  match prev, model with
  | Some p, None =>
      do cur <- kvGet (indexKey idx (indexer idx p));
      match cur with
      | None => ret (Some "index entry missing"%string)
      | Some _ => removeRef idx p
      end
  | _, _ => Update idx prev model
  end.

Definition GetLike (idx : Index Indexer) (pattern : SimpleObj)
  : St (list bytes * error) :=
  GetAt idx (indexer idx pattern).

(** A store whose record 01 is too long to deserialize. *)
Definition corruptStore : KVStore :=
  mkStore (<[str "acct:" ++ [x01] := str "alice"]> ∅) [].

(** The record 01 without its "name" index entry. *)
Definition halfIndexedStore : KVStore :=
  mkStore (<[str "acct:" ++ [x01] := str "al"]>
           (<[str "acct_self:" ++ [x01] := [x01]]> ∅)) [].

(** A store whose "name" index lists key 01, the record there being too
    long to deserialize. *)
Definition corruptRefStore : KVStore :=
  mkStore (<[str "acct:" ++ [x01] := str "alice"]>
           (<[str "acct_name:al" := [x01]]> ∅)) [].

End Sample.

(** ** Rewriting config.toml (server/init.go, [setTxIndex]) *)

Module TxIndex.

Definition prefixIndexer : string := "indexer".
Definition prefixIndexAll : string := "index_all_tags".
Definition prefixIndexTags : string := "index_tags".

Definition quote : string := String (ascii_of_nat 34) EmptyString.

(** [indexer = "kv"] *)
Definition setIndexer : string := "indexer = " +:+ quote +:+ "kv" +:+ quote.

(** [%t] *)
Definition fmtBool (b : bool) : string := if b then "true" else "false".

(** The body of the scanning loop: what is appended to [buf] for [line]. *)
Definition rewriteLine (all : bool) (tags : string) (line : string) : string :=
  if String.prefix prefixIndexer line then setIndexer
  else if String.prefix prefixIndexAll line then
    prefixIndexAll +:+ " = " +:+ fmtBool all
  else if String.prefix prefixIndexTags line then
    prefixIndexTags +:+ " = " +:+ quote +:+ tags +:+ quote
  else line.

(** [buf] after the loop and the final [append(buf, "")]. *)
Definition rewriteLines (all : bool) (tags : string) (lines : list string)
  : list string :=
  map (rewriteLine all tags) lines ++ [EmptyString].

End TxIndex.

(** * Properties *)

(** ** Reading and writing one record *)

Section BucketFacts.
Context {O : Type} `{!Object O}.
Variable Indexer : Type.
Variable Update : Index Indexer -> option O -> option O -> St error.
Variable GetAt : Index Indexer -> bytes -> St (list bytes * error).

Implicit Types (b : Bucket O) (key : bytes) (db : KVStore) (model : O).
Implicit Types (h : gmap loc (gmap string (Index Indexer))).
Implicit Types (ord : list (string * Index Indexer)).

(** [Get] reads the store once and leaves its contents alone. *)
Lemma Get_decode b key db :
  Get b key db
  = (decode b key (data db),
     mkStore (data db) (OpGet (DBKey b key) :: trace db)).
Proof.
  unfold Get, decode, bind, kvGet, ret; simpl.
  destruct (data db !! DBKey b key) as [bz|]; [|reflexivity].
  destruct (Unmarshal (Clone (proto b)) bz); reflexivity.
Qed.

Lemma Get_data b key db : data (snd (Get b key db)) = data db.
Proof. rewrite Get_decode; reflexivity. Qed.

(** C4: when nothing is stored at prefix+key, [Get] returns a nil object
    together with a nil error. *)
Theorem Get_absent_is_nil b key db :
  data db !! DBKey b key = None ->
  fst (Get b key db) = (None, None).
Proof.
  intros Habs. rewrite Get_decode; simpl.
  unfold decode. rewrite Habs. reflexivity.
Qed.

(** C5: when a record [bz] is stored at prefix+key, the object [Get]
    returns is the prototype's clone filled from [bz] with [key] attached,
    and its key is [key]; [Get] returns it whenever [bz] deserializes. *)
Theorem Get_present_carries_key b key db bz :
  data db !! DBKey b key = Some bz ->
  (forall o, Unmarshal (Clone (proto b)) bz = inl o ->
             fst (Get b key db) = (Some (SetKey key o), None))
  /\ (forall obj, fst (fst (Get b key db)) = Some obj ->
        Key obj = key
        /\ exists o, Unmarshal (Clone (proto b)) bz = inl o
                     /\ obj = SetKey key o).
Proof.
  intros Hpres. rewrite Get_decode; simpl. unfold decode. rewrite Hpres.
  split.
  - intros o Ho. rewrite Ho. reflexivity.
  - intros obj. destruct (Unmarshal (Clone (proto b)) bz) as [o|e]; simpl.
    + intros [= <-]. split; [apply Key_SetKey|]. exists o. auto.
    + discriminate.
Qed.

(** C2: a model that fails validation makes [Save] return the validation
    error; the store, contents and call log alike, is the one it was
    given. *)
Theorem Save_invalid_no_mutation h ord b model db e :
  Validate model = Some e ->
  Save Update h ord b model db = (Some e, db).
Proof.
  intros Hval. unfold Save. rewrite Hval. reflexivity.
Qed.

(** C9: a valid model whose value fails to marshal makes [Save] return the
    marshalling error before any call on the store: no key is read or
    written. *)
Theorem Save_marshal_failure_untouched h ord b model db e :
  Validate model = None ->
  Marshal model = inr e ->
  Save Update h ord b model db = (Some e, db).
Proof.
  intros Hval Hmar. unfold Save. rewrite Hval, Hmar. reflexivity.
Qed.

(** C10: on a bucket without indexes [Delete] returns nil for every key,
    stored or not, and its only call on the store is the delete of
    prefix+key: there is no read before it. *)
Theorem Delete_without_indexes h ord b key db :
  bucketIndexes h b = ∅ ->
  Delete Update h ord b key db
  = (None, mkStore (delete (DBKey b key) (data db))
                   (OpDelete (DBKey b key) :: trace db)).
Proof.
  intros Hnone. unfold Delete, updateIndexes. rewrite Hnone.
  rewrite map_size_empty. reflexivity.
Qed.

(** ** A failing index update *)

Lemma rangeUpdate_app pre rest prev m db db1 :
  rangeUpdate Update pre prev m db = (None, db1) ->
  rangeUpdate Update (pre ++ rest) prev m db
  = rangeUpdate Update rest prev m db1.
Proof.
  revert db. induction pre as [|[n i] pre IH]; intros db; simpl.
  - unfold ret. intros [= ->]. reflexivity.
  - unfold bind. destruct (Update i prev m db) as [[e|] db'].
    + unfold ret. discriminate.
    + apply IH.
Qed.

Lemma rangeUpdate_keeps K ord prev m db :
  Forall (fun p => keepsKey Update K p.2) ord ->
  data (snd (rangeUpdate Update ord prev m db)) !! K = data db !! K.
Proof.
  intros Hall. revert db.
  induction Hall as [|[n i] ord Hi _ IH]; intros db; simpl; [reflexivity|].
  unfold bind. specialize (Hi prev m db). simpl in Hi.
  destruct (Update i prev m db) as [[e|] db']; simpl in *.
  - exact Hi.
  - rewrite IH. exact Hi.
Qed.

(** C1: when the indexes before [idx] in the visiting order update without
    error and the update of [idx] fails with [e], [Save] returns [e] and
    stops in the store that failing update left: it makes no call of its
    own after it, so the record at prefix+key is not written, and what the
    earlier indexes wrote (the step from [dbG] to [db1]) stays.  With
    indexes that keep out of the primary key, the entry at prefix+key is
    the one from before the call. *)
Theorem Save_index_failure h b model bz ord pre n idx post prev
    db dbG db1 db2 e :
  Validate model = None ->
  Marshal model = inl bz ->
  ord ≡ₚ map_to_list (bucketIndexes h b) ->
  ord = pre ++ (n, idx) :: post ->
  Get b (Key model) db = ((prev, None), dbG) ->
  rangeUpdate Update pre prev (Some model) dbG = (None, db1) ->
  Update idx prev (Some model) db1 = (Some e, db2) ->
  Forall (fun p => keepsKey Update (DBKey b (Key model)) p.2) ord ->
  Save Update h ord b model db = (Some e, db2)
  /\ data db2 !! DBKey b (Key model) = data db !! DBKey b (Key model).
Proof.
  intros Hval Hmar Hperm Hord Hget Hpre Hfail Hkeep.
  assert (Hupd : updateIndexes Update h ord b (Key model) (Some model) db
                 = (Some e, db2)).
  { unfold updateIndexes.
    assert (Hsize : (0 <? size (bucketIndexes h b))%nat = true).
    { apply Nat.ltb_lt. rewrite <- length_map_to_list, <- Hperm, Hord.
      rewrite length_app. simpl. lia. }
    rewrite Hsize. unfold bind at 1. rewrite Hget.
    rewrite Hord, (rangeUpdate_app _ _ _ _ _ _ Hpre). simpl.
    unfold bind. rewrite Hfail. reflexivity. }
  split.
  - unfold Save. rewrite Hval, Hmar. unfold bind. rewrite Hupd. reflexivity.
  - pose proof (rangeUpdate_keeps (DBKey b (Key model)) ord prev
                  (Some model) dbG Hkeep) as Hk.
    rewrite Hord, (rangeUpdate_app _ _ _ _ _ _ Hpre) in Hk. simpl in Hk.
    unfold bind in Hk. rewrite Hfail in Hk. simpl in Hk.
    rewrite Hk. rewrite <- (Get_data b (Key model) db), Hget. reflexivity.
Qed.

(** ** Resolving references *)

Lemma readRefsFrom_decode b refs db :
  Forall (fun k => snd (decode b k (data db)) = None) refs ->
  exists db',
    readRefsFrom b refs db
    = ((map (fun k => fst (decode b k (data db))) refs, None), db')
    /\ data db' = data db.
Proof.
  intros Hall. revert db Hall.
  induction refs as [|k refs IH]; intros db Hall; simpl.
  { exists db. split; reflexivity. }
  apply Forall_cons in Hall as [Hk Hall].
  unfold bind. rewrite Get_decode.
  destruct (decode b k (data db)) as [obj err] eqn:Hdec; simpl in Hk; subst err.
  set (dbG := mkStore (data db) (OpGet (DBKey b k) :: trace db)).
  destruct (IH dbG Hall) as (db' & Hres & Hdata).
  rewrite Hres. exists db'. split; [reflexivity|exact Hdata].
Qed.

(** C3, as the code has it: when the index answers with [refs] and what is
    stored under the listed keys deserializes, [GetIndexed] returns a nil
    error and one entry per reference, in order; the entry of a reference
    with no record in the store is a nil object. *)
Theorem GetIndexed_dangling_is_nil h b nm key db idx refs db1 :
  bucketIndexes h b !! nm = Some idx ->
  GetAt idx key db = ((refs, None), db1) ->
  Forall (fun k => snd (decode b k (data db1)) = None) refs ->
  fst (GetIndexed GetAt h b nm key db)
  = (map (fun k => fst (decode b k (data db1))) refs, None)
  /\ (forall i k, refs !! i = Some k ->
                  data db1 !! DBKey b k = None ->
                  fst (fst (GetIndexed GetAt h b nm key db)) !! i = Some None).
Proof.
  intros Hidx Hat Hall.
  assert (Hres : fst (GetIndexed GetAt h b nm key db)
                 = (map (fun k => fst (decode b k (data db1))) refs, None)).
  { unfold GetIndexed. rewrite Hidx. unfold bind. rewrite Hat.
    destruct refs as [|k refs]; [reflexivity|].
    change (readRefs b (k :: refs)) with (readRefsFrom b (k :: refs)).
    destruct (readRefsFrom_decode b (k :: refs) db1 Hall) as (db' & -> & _).
    reflexivity. }
  split; [exact Hres|].
  intros i k Hi Habs. rewrite Hres. simpl.
  rewrite list_lookup_fmap, Hi. simpl.
  unfold decode. rewrite Habs. reflexivity.
Qed.

(** ** Registering an index *)

Lemma copyInto_insert l ord (m : gmap string (Index Indexer)) h :
  copyInto l ord (<[l := m]> h)
  = <[l := foldl (fun acc p => <[p.1 := p.2]> acc) m ord]> h.
Proof.
  revert m. induction ord as [|[n i] ord IH]; intros m; simpl; [reflexivity|].
  unfold mapAssign. rewrite alter_insert_eq. apply IH.
Qed.

Lemma foldl_insert_list_to_map ord :
  foldl (fun acc p => <[p.1 := p.2]> acc) (∅ : gmap string (Index Indexer)) ord
  = list_to_map (reverse ord).
Proof.
  induction ord as [|[n i] ord IH] using rev_ind; [reflexivity|].
  rewrite foldl_snoc, reverse_snoc, list_to_map_cons, IH. reflexivity.
Qed.

Lemma copy_of_range ord (m : gmap string (Index Indexer)) :
  ord ≡ₚ map_to_list m ->
  foldl (fun acc p => <[p.1 := p.2]> acc) ∅ ord = m.
Proof.
  intros Hperm. rewrite foldl_insert_list_to_map.
  transitivity (list_to_map (map_to_list m) : gmap string (Index Indexer));
    [|apply list_to_map_to_list].
  symmetry. apply list_to_map_proper.
  - apply NoDup_fst_map_to_list.
  - rewrite reverse_Permutation. symmetry. exact Hperm.
Qed.

(** C6: [WithIndex] panics when the name is already registered; otherwise
    it returns a bucket with the same name, prefix and prototype whose index
    map is the old one plus the new index, named bucket_index, held in a
    newly made map: every map that was in the heap, the receiver's
    included, is as before. *)
Theorem WithIndex_copy ord b nm ixr uniq h :
  allocated h b ->
  ord ≡ₚ map_to_list (bucketIndexes h b) ->
  (is_Some (bucketIndexes h b !! nm) ->
   panics (WithIndex ord b nm ixr uniq h))
  /\ (bucketIndexes h b !! nm = None ->
      exists b' h',
        WithIndex ord b nm ixr uniq h = Ok (b', h')
        /\ bucketIndexes h' b'
           = <[nm := NewIndex (name b +:+ "_" +:+ nm) ixr uniq]>
               (bucketIndexes h b)
        /\ bucketIndexes h' b = bucketIndexes h b
        /\ (forall l, l ∈ dom h -> h' !! l = h !! l)
        /\ name b' = name b /\ prefix b' = prefix b /\ proto b' = proto b).
Proof.
  intros Halloc Hperm. split.
  - intros [i Hi]. unfold WithIndex. rewrite Hi. exact I.
  - intros Hfree. unfold WithIndex. rewrite Hfree. unfold mapMake.
    set (l := fresh (dom h)).
    assert (Hl : l ∉ dom h) by apply is_fresh.
    rewrite copyInto_insert, (copy_of_range _ _ Hperm).
    unfold mapAssign. rewrite alter_insert_eq.
    set (m' := <[nm := NewIndex (name b +:+ "_" +:+ nm) ixr uniq]>
                 (bucketIndexes h b)).
    assert (Hold : forall l', l' ∈ dom h -> <[l := m']> h !! l' = h !! l').
    { intros l' Hl'. apply lookup_insert_ne. intros ->. contradiction. }
    eexists _, _. split; [reflexivity|].
    split; [|split; [|split; [exact Hold|auto]]].
    + unfold bucketIndexes at 1. simpl. rewrite lookup_insert_eq. reflexivity.
    + unfold bucketIndexes.
      destruct (indexes b) as [l0|] eqn:Hb; [|reflexivity].
      rewrite Hold; [reflexivity|]. apply Halloc. exact Hb.
Qed.

End BucketFacts.

(** ** The properties on the sample bucket *)

Section OnSample.
Import Sample.

Lemma Get_absent_is_nil_witness :
  data emptyStore !! DBKey acct [x01] = None
  /\ fst (Get acct [x01] emptyStore) = (None, None).
Proof.
  assert (Habs : data emptyStore !! DBKey acct [x01] = None)
    by (vm_compute; reflexivity).
  split; [exact Habs|].
  exact (Get_absent_is_nil acct [x01] emptyStore Habs).
Defined.

Lemma Get_present_carries_key_witness :
  data aliceStore !! DBKey acct [x01] = Some (str "al")
  /\ fst (Get acct [x01] aliceStore) = (Some (mkObj [x01] (str "al")), None)
  /\ forall obj, fst (fst (Get acct [x01] aliceStore)) = Some obj ->
                 Key obj = [x01].
Proof.
  assert (Hpres : data aliceStore !! DBKey acct [x01] = Some (str "al"))
    by (vm_compute; reflexivity).
  destruct (Get_present_carries_key acct [x01] aliceStore (str "al") Hpres)
    as [Hret Hkey].
  split; [exact Hpres|]. split.
  - exact (Hret (mkObj [] (str "al")) eq_refl).
  - intros obj Hobj. exact (proj1 (Hkey obj Hobj)).
Defined.

Lemma Save_invalid_no_mutation_witness :
  Validate (mkObj [] (str "al")) = Some "missing key"%string
  /\ Save Update acctHeap ordA acct (mkObj [] (str "al")) aliceStore
     = (Some "missing key"%string, aliceStore).
Proof.
  split; [reflexivity|].
  apply (Save_invalid_no_mutation Indexer Update acctHeap ordA acct).
  reflexivity.
Defined.

Lemma Save_marshal_failure_untouched_witness :
  Validate (mkObj [x02] (str "alice")) = None
  /\ Marshal (mkObj [x02] (str "alice")) = inr "value too long"%string
  /\ Save Update acctHeap ordA acct (mkObj [x02] (str "alice")) aliceStore
     = (Some "value too long"%string, aliceStore).
Proof.
  split; [reflexivity|]. split; [reflexivity|].
  apply (Save_marshal_failure_untouched Indexer Update acctHeap ordA acct);
    reflexivity.
Defined.

Lemma Delete_without_indexes_witness :
  bucketIndexes (∅ : gmap loc (gmap string (Index Indexer))) plain = ∅
  /\ data aliceStore !! DBKey plain [x09] = None
  /\ Delete Update ∅ [] plain [x09] aliceStore
     = (None, mkStore (delete (DBKey plain [x09]) (data aliceStore))
                      [OpDelete (DBKey plain [x09])]).
Proof.
  split; [reflexivity|]. split; [vm_compute; reflexivity|].
  apply (Delete_without_indexes Indexer Update ∅ [] plain [x09] aliceStore).
  reflexivity.
Defined.

(** The sample index writes under its own name only. *)
Lemma Sample_Update_keeps (idx : Index Indexer) (K : bytes) :
  (forall k, indexKey idx k <> K) -> keepsKey Update K idx.
Proof.
  intros Hne prev model st.
  assert (Hins : forall m st',
            data (snd (insertRef idx m st')) !! K = data st' !! K).
  { intros m st'. unfold insertRef, bind, kvGet, kvSet, ret; simpl.
    destruct (data st' !! indexKey idx (indexer idx m)) as [pk|]; simpl.
    - destruct (bool_decide (pk = okey m)); reflexivity.
    - apply lookup_insert_ne, Hne. }
  assert (Hrem : forall p st',
            data (snd (removeRef idx p st')) !! K = data st' !! K).
  { intros p st'. unfold removeRef, bind, kvDelete, ret; simpl.
    apply lookup_delete_ne, Hne. }
  destruct prev as [p|], model as [m|];
    [|exact (Hrem p st)|exact (Hins m st)|reflexivity].
  unfold Update.
  destruct (bool_decide (indexer idx p = indexer idx m)); [reflexivity|].
  unfold bind. pose proof (Hins m st) as Hi.
  destruct (insertRef idx m st) as [[e|] st']; simpl in *; [exact Hi|].
  rewrite Hrem. exact Hi.
Qed.

Lemma Save_index_failure_witness :
  fst (Save Update acctHeap ordA acct bob aliceStore)
  = Some "duplicate key"%string
  /\ data (snd (Save Update acctHeap ordA acct bob aliceStore))
       !! DBKey acct [x02] = None
  /\ data aliceStore !! (str "acct_self:" ++ [x02]) = None
  /\ data (snd (Save Update acctHeap ordA acct bob aliceStore))
       !! (str "acct_self:" ++ [x02]) = Some [x02].
Proof.
  set (dbG := snd (Get acct [x02] aliceStore)).
  set (db1 := snd (rangeUpdate Update [("self"%string, selfIndex)]
                     None (Some bob) dbG)).
  set (db2 := snd (Update nameIndex None (Some bob) db1)).
  assert (Hkeep : Forall (fun p => keepsKey Update (DBKey acct (Key bob)) p.2)
                    ordA).
  { repeat constructor; apply Sample_Update_keeps;
      intros k Heq; vm_compute in Heq; discriminate Heq. }
  destruct (Save_index_failure Indexer Update acctHeap acct bob (str "al")
              ordA [("self"%string, selfIndex)] "name"%string nameIndex []
              None aliceStore dbG db1 db2 "duplicate key"%string)
    as [Hsave Hprim]; try (vm_compute; reflexivity); [exact Hkeep|].
  rewrite Hsave. simpl fst. simpl snd. split; [reflexivity|].
  split.
  { change (DBKey acct [x02]) with (DBKey acct (Key bob)).
    rewrite Hprim. vm_compute; reflexivity. }
  split; vm_compute; reflexivity.
Defined.

(** C3, read as "a dangling reference is an error", fails on the store whose
    "name" index lists a key without a record. *)
Lemma GetIndexed_dangling_not_error :
  ~ danglingIsError GetAt acctHeap acct "name" (str "al") danglingStore.
Proof.
  intros Herr.
  destruct (Herr nameIndex [[x01]]
              (snd (GetAt nameIndex (str "al") danglingStore)))
    as [e He].
  - vm_compute; reflexivity.
  - vm_compute; reflexivity.
  - exists [x01]. split; [apply list_elem_of_here|vm_compute; reflexivity].
  - vm_compute in He. discriminate He.
Qed.

Lemma GetIndexed_dangling_is_nil_witness :
  bucketIndexes acctHeap acct !! "name"%string = Some nameIndex
  /\ data danglingStore !! DBKey acct [x01] = None
  /\ fst (GetIndexed GetAt acctHeap acct "name" (str "al") danglingStore)
     = ([None], None).
Proof.
  assert (Hidx : bucketIndexes acctHeap acct !! "name"%string = Some nameIndex)
    by (vm_compute; reflexivity).
  split; [exact Hidx|]. split; [vm_compute; reflexivity|].
  destruct (GetIndexed_dangling_is_nil Indexer GetAt acctHeap acct "name"
              (str "al") danglingStore nameIndex [[x01]]
              (snd (GetAt nameIndex (str "al") danglingStore)) Hidx)
    as [Hres _].
  - vm_compute; reflexivity.
  - repeat constructor.
  - rewrite Hres. vm_compute; reflexivity.
Defined.

Lemma WithIndex_copy_witness :
  allocated acctHeap acct
  /\ ordA ≡ₚ map_to_list (bucketIndexes acctHeap acct)
  /\ panics (WithIndex ordA acct "name" ovalue true acctHeap)
  /\ exists b' h',
       WithIndex ordA acct "kind" ovalue false acctHeap = Ok (b', h')
       /\ bucketIndexes h' b'
          = <["kind"%string := NewIndex "acct_kind" ovalue false]>
              (bucketIndexes acctHeap acct)
       /\ bucketIndexes h' acct = bucketIndexes acctHeap acct.
Proof.
  assert (Halloc : allocated acctHeap acct).
  { intros l [= <-]. apply elem_of_dom. exists acctIndexes.
    vm_compute; reflexivity. }
  assert (Hperm : ordA ≡ₚ map_to_list (bucketIndexes acctHeap acct))
    by (vm_compute; reflexivity).
  split; [exact Halloc|]. split; [exact Hperm|].
  split.
  - apply (proj1 (WithIndex_copy Indexer ordA acct "name" ovalue true
                    acctHeap Halloc Hperm)).
    exists nameIndex. vm_compute; reflexivity.
  - destruct (proj2 (WithIndex_copy Indexer ordA acct "kind" ovalue false
                       acctHeap Halloc Hperm))
      as (b' & h' & Hret & Hnew & Hsame & _); [vm_compute; reflexivity|].
    exists b', h'. auto.
Defined.

End OnSample.

(** ** The last-modified decorator *)

Module LastModifiedFacts.
Import LastModified.

Section Facts.
Variables Context Model ModelSlicePtr Metadata QueryRouter : Type.
Variable GetHeight : Context -> Z * bool.
Variable metadator : Model -> option (option Metadata).
Variable showMeta : option Metadata -> string.

Implicit Types (u : unboundLastModifiedBucket Model ModelSlicePtr QueryRouter).
Implicit Types (b : lastModifiedBucket Model ModelSlicePtr QueryRouter).

(** C8: [Bind] panics exactly when the context carries no block height, and
    with a height it returns the bound bucket holding that height and the
    wrapped bucket. *)
Theorem Bind_panics_iff_no_height u (ctx : Context) :
  (panics (Bind GetHeight u ctx) <-> snd (GetHeight ctx) = false)
  /\ (forall height, GetHeight ctx = (height, true) ->
        Bind GetHeight u ctx
        = Ok {| blockHeight := height; bucket := ubucket u |}).
Proof.
  unfold Bind. destruct (GetHeight ctx) as [height [|]]; simpl.
  - split; [split; [contradiction|discriminate]|].
    intros height' [= <-]. reflexivity.
  - split; [split; auto|]. intros height' [=].
Qed.

(** The reads go straight to the wrapped bucket. *)
Lemma One_pass_through b key (dest : Model) (w : World) :
  One b key dest w = mbOne (bucket b) key dest w.
Proof. reflexivity. Qed.

Lemma ByIndex_pass_through b nm key (dest : ModelSlicePtr) (w : World) :
  ByIndex b nm key dest w = mbByIndex (bucket b) nm key dest w.
Proof. reflexivity. Qed.

(** [Put] hands the wrapped bucket the model it was given, on the same
    store; all it adds is a line on standard output. *)
Lemma Put_forwards_model b key (m : Model) (w : World) :
  exists w', Put metadator showMeta b key m w = mbPut (bucket b) key m w'
             /\ db w' = db w.
Proof.
  unfold Put. destruct (metadator m) as [meta|]; eexists; split; reflexivity.
Qed.

End Facts.

(** C7, on a channel last modified at height 0 put through a bucket bound at
    height 7: the wrapped bucket stores height 0, and the only trace of the
    decorator is the printed line. *)
Theorem Put_leaves_height_unstamped :
  let m := Sample.mkChannel (Some (Sample.mkMeta 1 0)) (Sample.str "memo") in
  let w := mkWorld Sample.emptyStore [] in
  exists bound,
    Bind Sample.GetHeight (WithLastModified _ _ _ Sample.baseBucket) (Some 7)
    = Ok bound
    /\ blockHeight bound = 7
    /\ data (db (snd (Put Sample.metadator Sample.showMeta bound [x01] m w)))
         !! [x01] = Some (x00 :: Sample.str "memo")
    /\ stdout (snd (Put Sample.metadator Sample.showMeta bound [x01] m w))
       = ["meta = b.blockHeight &{}"%string].
Proof.
  eexists. split; [reflexivity|]. split; [reflexivity|].
  split; vm_compute; reflexivity.
Qed.

Lemma Bind_panics_iff_no_height_witness :
  panics (Bind Sample.GetHeight (WithLastModified _ _ _ Sample.baseBucket) None)
  /\ Bind Sample.GetHeight (WithLastModified _ _ _ Sample.baseBucket) (Some 42)
     = Ok {| blockHeight := 42; bucket := Sample.baseBucket |}.
Proof.
  split.
  - apply (proj1 (Bind_panics_iff_no_height _ _ _ _ Sample.GetHeight
                    (WithLastModified _ _ _ Sample.baseBucket) None)).
    reflexivity.
  - apply (proj2 (Bind_panics_iff_no_height _ _ _ _ Sample.GetHeight
                    (WithLastModified _ _ _ Sample.baseBucket) (Some 42))).
    reflexivity.
Defined.

End LastModifiedFacts.

(** * Further properties of the bucket *)

Section BucketMoreFacts.
Context {O : Type} `{!Object O}.
Variable Indexer : Type.
Variable Update : Index Indexer -> option O -> option O -> St error.
Variable GetAt : Index Indexer -> bytes -> St (list bytes * error).
Variable GetLike : Index Indexer -> O -> St (list bytes * error).

Implicit Types (b : Bucket O) (key : bytes) (db : KVStore) (model : O).
Implicit Types (h : gmap loc (gmap string (Index Indexer))).
Implicit Types (ord : list (string * Index Indexer)).

(** ** Key regions *)





(** ** Save and Delete followed by Get *)

Lemma updateIndexes_keeps K h ord b key (m : option O) db :
  Forall (fun p => keepsKey Update K p.2) ord ->
  data (snd (updateIndexes Update h ord b key m db)) !! K = data db !! K.
Proof.
  intros Hkeep. unfold updateIndexes.
  destruct (0 <? size (bucketIndexes h b))%nat; [|reflexivity].
  unfold bind. rewrite Get_decode.
  destruct (decode b key (data db)) as [prev [e|]]; [reflexivity|].
  rewrite (rangeUpdate_keeps Indexer Update K ord prev m _ Hkeep). reflexivity.
Qed.

(** X2: when [Save] returns nil, the marshalled bytes are what the store holds
    at prefix+key, and a [Get] of the model's key right after answers with
    the prototype's clone filled from those bytes, or with the error of
    filling it. *)
Theorem Save_then_Get h ord b model bz db :
  Marshal model = inl bz ->
  fst (Save Update h ord b model db) = None ->
  data (snd (Save Update h ord b model db)) !! DBKey b (Key model) = Some bz
  /\ fst (Get b (Key model) (snd (Save Update h ord b model db)))
     = match Unmarshal (Clone (proto b)) bz with
       | inl o => (Some (SetKey (Key model) o), None)
       | inr e => (None, Some e)
       end.
Proof.
  intros Hmar. unfold Save. rewrite Hmar.
  destruct (Validate model) as [e|]; [discriminate|].
  unfold bind.
  destruct (updateIndexes Update h ord b (Key model) (Some model) db)
    as [[e|] db1]; [discriminate|].
  intros _. simpl.
  assert (Hnow : <[prefix b ++ Key model := bz]> (data db1)
                   !! DBKey b (Key model) = Some bz)
    by apply lookup_insert_eq.
  split; [exact Hnow|].
  rewrite Get_decode. simpl. unfold decode. simpl. rewrite Hnow.
  destruct (Unmarshal (Clone (proto b)) bz); reflexivity.
Qed.

(** X3: [Save] changes nothing outside prefix+key beyond what the index updates
    change: a store key that the indexes leave alone and that is not the
    record's own holds after [Save], successful or not, what it held
    before. *)
Theorem Save_keeps_other_keys K h ord b model db :
  Forall (fun p => keepsKey Update K p.2) ord ->
  K <> DBKey b (Key model) ->
  data (snd (Save Update h ord b model db)) !! K = data db !! K.
Proof.
  intros Hkeep Hne. unfold Save.
  destruct (Validate model) as [e|]; [reflexivity|].
  destruct (Marshal model) as [bz|e]; [|reflexivity].
  unfold bind.
  pose proof (updateIndexes_keeps K h ord b (Key model) (Some model) db Hkeep)
    as Hupd.
  destruct (updateIndexes Update h ord b (Key model) (Some model) db)
    as [[e|] db1]; simpl in *; [exact Hupd|].
  rewrite lookup_insert_ne; [exact Hupd|]. intros Heq. apply Hne. symmetry.
  exact Heq.
Qed.

(** X4: when [Delete] returns nil, nothing is stored at prefix+key any more and
    a [Get] of the key right after answers nil, nil. *)
Theorem Delete_then_Get h ord b key db :
  fst (Delete Update h ord b key db) = None ->
  data (snd (Delete Update h ord b key db)) !! DBKey b key = None
  /\ fst (Get b key (snd (Delete Update h ord b key db))) = (None, None).
Proof.
  unfold Delete, bind.
  destruct (updateIndexes Update h ord b key None db) as [[e|] db1];
    [discriminate|].
  intros _. simpl.
  assert (Hnow : delete (DBKey b key) (data db1) !! DBKey b key = None)
    by apply lookup_delete_eq.
  split; [exact Hnow|].
  rewrite Get_decode. simpl. unfold decode. simpl. rewrite Hnow. reflexivity.
Qed.

(** ** What the indexes make Save and Delete do *)

(** X5: on a bucket without indexes [Save] of a valid model never reads: its
    one call on the store is the write of the marshalled bytes at
    prefix+key, over whatever was there. *)
Theorem Save_without_indexes h ord b model bz db :
  bucketIndexes h b = ∅ ->
  Validate model = None ->
  Marshal model = inl bz ->
  Save Update h ord b model db
  = (None, mkStore (<[DBKey b (Key model) := bz]> (data db))
                   (OpSet (DBKey b (Key model)) bz :: trace db)).
Proof.
  intros Hnone Hval Hmar. unfold Save, updateIndexes.
  rewrite Hval, Hmar, Hnone, map_size_empty. reflexivity.
Qed.

(** X6: on a bucket with at least one index, a stored record that does not
    deserialize blocks both operations on its key: [Delete], and [Save] of
    any valid model under that key, return the deserialization error after
    the one read, and the record stays. *)
Theorem undecodable_record_blocks_writes h ord b key bz0 e db :
  bucketIndexes h b <> ∅ ->
  data db !! DBKey b key = Some bz0 ->
  Unmarshal (Clone (proto b)) bz0 = inr e ->
  let db' := mkStore (data db) (OpGet (DBKey b key) :: trace db) in
  Delete Update h ord b key db = (Some e, db')
  /\ (forall model bz,
        Key model = key -> Validate model = None -> Marshal model = inl bz ->
        Save Update h ord b model db = (Some e, db')).
Proof.
  intros Hsome Hrec Hbad db'.
  assert (Hsize : (0 <? size (bucketIndexes h b))%nat = true).
  { apply Nat.ltb_lt. destruct (size (bucketIndexes h b)) eqn:Hs; [|lia].
    apply map_size_empty_inv in Hs. contradiction. }
  assert (Hupd : forall m, updateIndexes Update h ord b key m db = (Some e, db')).
  { intros m. unfold updateIndexes. rewrite Hsize. unfold bind.
    rewrite Get_decode. unfold decode. rewrite Hrec, Hbad. reflexivity. }
  split.
  - unfold Delete, bind. rewrite Hupd. reflexivity.
  - intros model bz Hkey Hval Hmar. unfold Save.
    rewrite Hval, Hmar, Hkey. unfold bind. rewrite Hupd. reflexivity.
Qed.

Lemma updateIndexes_stops h ord pre n idx post b key (m prev : option O)
    db dbG db1 db2 e :
  ord ≡ₚ map_to_list (bucketIndexes h b) ->
  ord = pre ++ (n, idx) :: post ->
  Get b key db = ((prev, None), dbG) ->
  rangeUpdate Update pre prev m dbG = (None, db1) ->
  Update idx prev m db1 = (Some e, db2) ->
  updateIndexes Update h ord b key m db = (Some e, db2).
Proof.
  intros Hperm Hord Hget Hpre Hfail. unfold updateIndexes.
  assert (Hsize : (0 <? size (bucketIndexes h b))%nat = true).
  { apply Nat.ltb_lt. rewrite <- length_map_to_list, <- Hperm, Hord.
    rewrite length_app. simpl. lia. }
  rewrite Hsize. unfold bind at 1. rewrite Hget.
  rewrite Hord, (rangeUpdate_app Indexer Update _ _ _ _ _ _ Hpre). simpl.
  unfold bind. rewrite Hfail. reflexivity.
Qed.

(** X7: when the update of one index fails during [Delete], [Delete] returns
    that error in the store the failing update left: it issues no delete,
    so with indexes that keep out of the primary key the record is still
    there, while the entries the earlier indexes dropped stay dropped. *)
Theorem Delete_index_failure h b key ord pre n idx post prev
    db dbG db1 db2 e :
  ord ≡ₚ map_to_list (bucketIndexes h b) ->
  ord = pre ++ (n, idx) :: post ->
  Get b key db = ((prev, None), dbG) ->
  rangeUpdate Update pre prev None dbG = (None, db1) ->
  Update idx prev None db1 = (Some e, db2) ->
  Forall (fun p => keepsKey Update (DBKey b key) p.2) ord ->
  Delete Update h ord b key db = (Some e, db2)
  /\ data db2 !! DBKey b key = data db !! DBKey b key.
Proof.
  intros Hperm Hord Hget Hpre Hfail Hkeep.
  pose proof (updateIndexes_stops h ord pre n idx post b key None prev
                db dbG db1 db2 e Hperm Hord Hget Hpre Hfail) as Hupd.
  split.
  - unfold Delete, bind. rewrite Hupd. reflexivity.
  - pose proof (updateIndexes_keeps (DBKey b key) h ord b key None db Hkeep)
      as Hk.
    rewrite Hupd in Hk. exact Hk.
Qed.

(** ** Queries *)

(** X8: a query on a name that is not registered touches nothing: [GetIndexed]
    and [GetIndexedLike] return no objects and the error "No such index:"
    followed by the name, with the store as it was given. *)
Theorem unknown_index_is_an_error h b nm key (pattern : O) db :
  bucketIndexes h b !! nm = None ->
  GetIndexed GetAt h b nm key db = (([], Some ("No such index: " +:+ nm)), db)
  /\ GetIndexedLike GetLike h b nm pattern db
     = (([], Some ("No such index: " +:+ nm)), db).
Proof.
  intros Hnone. unfold GetIndexed, GetIndexedLike. rewrite Hnone.
  split; reflexivity.
Qed.

(** The store calls of a run of [readRefs]: one read per key, latest first. *)
Lemma readRefsFrom_reads b refs db :
  exists n,
    (n <= length refs)%nat
    /\ snd (readRefsFrom b refs db)
       = mkStore (data db)
           (map (fun k => OpGet (DBKey b k)) (reverse (take n refs))
            ++ trace db).
Proof.
  revert db. induction refs as [|k refs IH]; intros db; simpl.
  { exists 0%nat. split; [lia|]. destruct db; reflexivity. }
  unfold bind. rewrite Get_decode.
  destruct (decode b k (data db)) as [obj [e|]].
  - exists 1%nat. split; [lia|]. reflexivity.
  - set (dbG := mkStore (data db) (OpGet (DBKey b k) :: trace db)).
    destruct (IH dbG) as (n & Hn & Hsnd).
    exists (S n). split; [lia|].
    destruct (readRefsFrom b refs dbG) as [[objs [e|]] db'];
      simpl in *; rewrite Hsnd; simpl;
      rewrite reverse_cons, map_app, <- app_assoc; reflexivity.
Qed.

(** X9: [readRefs] only reads: whatever the references and whatever it returns,
    the contents of the store are unchanged, and its calls on the store are
    reads of prefix+key for an initial stretch of the references, in
    order. *)
Theorem readRefs_only_reads b refs db :
  exists n,
    (n <= length refs)%nat
    /\ snd (readRefs b refs db)
       = mkStore (data db)
           (map (fun k => OpGet (DBKey b k)) (reverse (take n refs))
            ++ trace db).
Proof.
  unfold readRefs. destruct refs as [|k refs].
  - exists 0%nat. split; [reflexivity|]. destruct db; reflexivity.
  - apply readRefsFrom_reads.
Qed.

Lemma readRefsFrom_result b refs db :
  match fst (readRefsFrom b refs db) with
  | (objs, None) => length objs = length refs
  | (objs, Some _) => objs = []
  end.
Proof.
  revert db. induction refs as [|k refs IH]; intros db; simpl; [reflexivity|].
  unfold bind. destruct (Get b k db) as [[obj [e|]] dbG]; [reflexivity|].
  specialize (IH dbG).
  destruct (readRefsFrom b refs dbG) as [[objs [e|]] db']; simpl in *;
    [reflexivity|]. rewrite IH. reflexivity.
Qed.

(** X10: [readRefs] answers all or nothing: with a nil error there is one entry
    per reference, with an error there are no entries at all. *)
Theorem readRefs_all_or_nothing b refs db :
  match fst (readRefs b refs db) with
  | (objs, None) => length objs = length refs
  | (objs, Some _) => objs = []
  end.
Proof.
  unfold readRefs. destruct refs as [|k refs]; [reflexivity|].
  apply readRefsFrom_result.
Qed.

(** X11: the first listed record that does not deserialize ends [readRefs]: it
    returns that error, and the references after it are not read. *)
Theorem readRefs_stops_at_undecodable b pre k post bz e db :
  Forall (fun k' => snd (decode b k' (data db)) = None) pre ->
  data db !! DBKey b k = Some bz ->
  Unmarshal (Clone (proto b)) bz = inr e ->
  readRefs b (pre ++ k :: post) db
  = (([], Some e),
     mkStore (data db)
       (map (fun k' => OpGet (DBKey b k')) (reverse (pre ++ [k]))
        ++ trace db)).
Proof.
  intros Hpre Hrec Hbad.
  assert (Hfrom : forall db0, data db0 = data db ->
            readRefsFrom b (pre ++ k :: post) db0
            = (([], Some e),
               mkStore (data db)
                 (map (fun k' => OpGet (DBKey b k')) (reverse (pre ++ [k]))
                  ++ trace db0))).
  { induction Hpre as [|k' pre Hk' _ IH]; intros db0 Hdata; simpl.
    - unfold bind. rewrite Get_decode. unfold decode.
      rewrite Hdata, Hrec, Hbad. reflexivity.
    - unfold bind. rewrite Get_decode. rewrite Hdata.
      destruct (decode b k' (data db)) as [obj err]; simpl in Hk'; subst err.
      rewrite IH by reflexivity. simpl.
      rewrite reverse_cons, map_app, <- app_assoc. reflexivity. }
  unfold readRefs. destruct pre as [|k' pre]; simpl length; simpl Nat.eqb;
    cbv iota; apply Hfrom; reflexivity.
Qed.

(** ** Chaining WithIndex *)

Lemma WithIndex_Ok_inv ord b nm ixr uniq h b' h' :
  WithIndex ord b nm ixr uniq h = Ok (b', h') ->
  let l := fresh (dom h) in
  let add := NewIndex (name b +:+ "_" +:+ nm) ixr uniq in
  bucketIndexes h b !! nm = None
  /\ b' = {| name := name b; prefix := prefix b; proto := proto b;
             indexes := Some l |}
  /\ h' = <[l := <[nm := add]>
                   (foldl (fun acc p => <[p.1 := p.2]> acc) ∅ ord)]> h.
Proof.
  unfold WithIndex. destruct (bucketIndexes h b !! nm); [discriminate|].
  unfold mapMake. rewrite copyInto_insert. unfold mapAssign.
  rewrite alter_insert_eq. intros [= <- <-]. auto.
Qed.

Lemma WithIndex_Ok_registered ord b nm ixr uniq h b' h' :
  WithIndex ord b nm ixr uniq h = Ok (b', h') ->
  bucketIndexes h' b' !! nm = Some (NewIndex (name b +:+ "_" +:+ nm) ixr uniq).
Proof.
  intros Hok. apply WithIndex_Ok_inv in Hok as (_ & -> & ->).
  unfold bucketIndexes. simpl. rewrite lookup_insert_eq. simpl.
  apply lookup_insert_eq.
Qed.

(** X12: registering a name a second time on the bucket [WithIndex] returned
    panics, whatever the indexer and the uniqueness flag. *)
Theorem WithIndex_twice_panics ord b nm ixr uniq h b' h' ord' ixr' uniq' :
  WithIndex ord b nm ixr uniq h = Ok (b', h') ->
  panics (WithIndex ord' b' nm ixr' uniq' h').
Proof.
  intros Hok. apply WithIndex_Ok_registered in Hok.
  unfold WithIndex. rewrite Hok. exact I.
Qed.

(** X13: two calls chained on different free names register both indexes, each
    under the bucket's name, an underscore and its own name. *)
Theorem WithIndex_chain ord0 ord1 b n1 n2 i1 i2 u1 u2 h b1 h1 :
  n1 <> n2 ->
  bucketIndexes h b !! n2 = None ->
  ord0 ≡ₚ map_to_list (bucketIndexes h b) ->
  WithIndex ord0 b n1 i1 u1 h = Ok (b1, h1) ->
  ord1 ≡ₚ map_to_list (bucketIndexes h1 b1) ->
  exists b2 h2,
    WithIndex ord1 b1 n2 i2 u2 h1 = Ok (b2, h2)
    /\ bucketIndexes h2 b2 !! n1 = Some (NewIndex (name b +:+ "_" +:+ n1) i1 u1)
    /\ bucketIndexes h2 b2 !! n2 = Some (NewIndex (name b +:+ "_" +:+ n2) i2 u2).
Proof.
  intros Hne Hfree Hperm0 Hok1 Hperm1.
  pose proof (WithIndex_Ok_registered _ _ _ _ _ _ _ _ Hok1) as Hreg1.
  pose proof (WithIndex_Ok_inv _ _ _ _ _ _ _ _ Hok1) as (_ & Hb1 & Hh1).
  assert (Hmap1 : bucketIndexes h1 b1
                  = <[n1 := NewIndex (name b +:+ "_" +:+ n1) i1 u1]>
                      (bucketIndexes h b)).
  { rewrite Hb1, Hh1. unfold bucketIndexes at 1. simpl.
    rewrite lookup_insert_eq. simpl.
    rewrite (copy_of_range Indexer _ _ Hperm0). reflexivity. }
  assert (Hfree1 : bucketIndexes h1 b1 !! n2 = None).
  { rewrite Hmap1, lookup_insert_ne by exact Hne. exact Hfree. }
  destruct (WithIndex ord1 b1 n2 i2 u2 h1) as [[b2 h2]|msg] eqn:Hok2.
  - exists b2, h2. split; [reflexivity|].
    pose proof (WithIndex_Ok_registered _ _ _ _ _ _ _ _ Hok2) as Hreg2.
    pose proof (WithIndex_Ok_inv _ _ _ _ _ _ _ _ Hok2) as (_ & Hb2 & Hh2).
    assert (Hname : name b1 = name b) by (rewrite Hb1; reflexivity).
    rewrite Hname in Hreg2. split; [|exact Hreg2].
    rewrite Hb2, Hh2. unfold bucketIndexes at 1. simpl.
    rewrite lookup_insert_eq. simpl.
    rewrite (copy_of_range Indexer _ _ Hperm1).
    rewrite lookup_insert_ne by (intros Heq; apply Hne; symmetry; exact Heq).
    exact Hreg1.
  - exfalso. unfold WithIndex in Hok2. rewrite Hfree1 in Hok2.
    unfold mapMake in Hok2. discriminate Hok2.
Qed.

Lemma readRefs_same_region b b' refs db :
  prefix b' = prefix b -> proto b' = proto b ->
  readRefs b' refs db = readRefs b refs db.
Proof.
  intros Hprefix Hproto.
  assert (Hget : forall k db0, Get b' k db0 = Get b k db0).
  { intros k db0. unfold Get, DBKey. rewrite Hprefix, Hproto. reflexivity. }
  unfold readRefs. destruct (length refs =? 0)%nat; [reflexivity|].
  revert db. induction refs as [|k refs IH]; intros db; simpl; [reflexivity|].
  unfold bind. rewrite Hget.
  destruct (Get b k db) as [[obj [e|]] dbG]; [reflexivity|].
  rewrite IH. reflexivity.
Qed.

(** X14: after [WithIndex], a query by the new name on the returned bucket goes
    to the new index and resolves its references as the old bucket would,
    while the same query on the receiver still fails with "No such
    index". *)
Theorem WithIndex_then_GetIndexed ord b nm ixr uniq h b' h' key db refs db1 :
  allocated h b ->
  WithIndex ord b nm ixr uniq h = Ok (b', h') ->
  GetAt (NewIndex (name b +:+ "_" +:+ nm) ixr uniq) key db
  = ((refs, None), db1) ->
  GetIndexed GetAt h' b' nm key db = readRefs b refs db1
  /\ GetIndexed GetAt h' b nm key db
     = (([], Some ("No such index: " +:+ nm)), db).
Proof.
  intros Halloc Hok Hat.
  pose proof (WithIndex_Ok_registered _ _ _ _ _ _ _ _ Hok) as Hreg.
  pose proof (WithIndex_Ok_inv _ _ _ _ _ _ _ _ Hok) as (Hfree & Hb' & Hh').
  split.
  - unfold GetIndexed. rewrite Hreg. unfold bind. rewrite Hat.
    apply readRefs_same_region; rewrite Hb'; reflexivity.
  - assert (Hsame : bucketIndexes h' b = bucketIndexes h b).
    { unfold bucketIndexes. destruct (indexes b) as [l0|] eqn:Hb; [|reflexivity].
      rewrite Hh', lookup_insert_ne; [reflexivity|].
      intros Heq. apply (is_fresh (dom h)). rewrite Heq. apply Halloc, Hb. }
    unfold GetIndexed. rewrite Hsame, Hfree. reflexivity.
Qed.

End BucketMoreFacts.

(** * Further properties of the last-modified decorator *)

Module LastModifiedMoreFacts.
Import LastModified.

Section Facts.
Variables Context Model ModelSlicePtr Metadata QueryRouter : Type.
Variable GetHeight : Context -> Z * bool.
Variable metadator : Model -> option (option Metadata).
Variable showMeta : option Metadata -> string.

Implicit Types (u : unboundLastModifiedBucket Model ModelSlicePtr QueryRouter).
Implicit Types (b : lastModifiedBucket Model ModelSlicePtr QueryRouter).

Lemma Bind_Ok_bucket u (ctx : Context) b :
  Bind GetHeight u ctx = Ok b -> bucket b = ubucket u.
Proof.
  unfold Bind. destruct (GetHeight ctx) as [height [|]]; simpl; [|discriminate].
  intros [= <-]. reflexivity.
Qed.

(** X15: the height a bucket was bound at plays no part in [Put]: binding the
    same unbound bucket to two contexts gives buckets whose [Put] does the
    same on every key, model and world. *)
Theorem Put_ignores_height u (ctx1 ctx2 : Context) b1 b2 key (m : Model)
    (w : World) :
  Bind GetHeight u ctx1 = Ok b1 ->
  Bind GetHeight u ctx2 = Ok b2 ->
  Put metadator showMeta b1 key m w = Put metadator showMeta b2 key m w.
Proof.
  intros H1 H2. apply Bind_Ok_bucket in H1. apply Bind_Ok_bucket in H2.
  unfold Put. rewrite H1, H2. reflexivity.
Qed.

(** X16: decorating twice: [Put] on a last-modified bucket wrapped around another
    last-modified bucket reaches the innermost bucket with the key, the
    model and the store it was given; the two layers only print their line,
    once each, when the model carries metadata. *)
Theorem Put_stacked (height2 : Z) b1 key (m : Model) (w : World) :
  Put metadator showMeta
    (mkBound height2
       (asModelBucket Model ModelSlicePtr Metadata QueryRouter
          metadator showMeta b1))
    key m w
  = mbPut (bucket b1) key m
      (mkWorld (db w)
         (stdout w
          ++ match metadator m with
             | Some meta =>
                 ["meta = b.blockHeight " +:+ showMeta meta;
                  "meta = b.blockHeight " +:+ showMeta meta]
             | None => []
             end)).
Proof.
  unfold Put at 1. simpl. unfold Put.
  destruct (metadator m) as [meta|]; simpl.
  - rewrite <- app_assoc. reflexivity.
  - rewrite app_nil_r. destruct w; reflexivity.
Qed.

End Facts.

End LastModifiedMoreFacts.

(** * Rewriting config.toml *)

Module TxIndexFacts.
Import TxIndex.


Lemma prefix_app_l (s1 s2 line : string) :
  String.prefix (s1 +:+ s2) line = true -> String.prefix s1 line = true.
Proof.
  revert line. induction s1 as [|a s1 IH]; intros line; simpl.
  - destruct line; reflexivity.
  - destruct line as [|c line]; simpl; [discriminate|].
    destruct (ascii_dec a c); [apply IH|discriminate].
Qed.

Lemma rewriteLine_other (all : bool) (tags line : string) :
  String.prefix "index" line = false -> rewriteLine all tags line = line.
Proof.
  intros Hother. unfold rewriteLine.
  destruct (String.prefix prefixIndexer line) eqn:H1.
  { apply (prefix_app_l "index" "er") in H1. congruence. }
  destruct (String.prefix prefixIndexAll line) eqn:H2.
  { apply (prefix_app_l "index" "_all_tags") in H2. congruence. }
  destruct (String.prefix prefixIndexTags line) eqn:H3.
  { apply (prefix_app_l "index" "_tags") in H3. congruence. }
  reflexivity.
Qed.

(** X18: the settings that are not about indexing survive: when no line starts
    with "index", the buffer written back is the lines as they were read,
    in order, followed by one empty line. *)
Theorem rewriteLines_keeps_other_settings (all : bool) (tags : string)
    (lines : list string) :
  Forall (fun line => String.prefix "index" line = false) lines ->
  rewriteLines all tags lines = lines ++ [EmptyString].
Proof.
  intros Hother. unfold rewriteLines. f_equal.
  induction Hother as [|line lines Hline _ IH]; simpl; [reflexivity|].
  rewrite IH, (rewriteLine_other all tags line Hline). reflexivity.
Qed.

Lemma rewriteLines_keeps_other_settings_witness :
  rewriteLines true "a,b" ["moniker = x"%string; "db_backend = y"%string]
  = ["moniker = x"%string; "db_backend = y"%string; EmptyString].
Proof.
  apply (rewriteLines_keeps_other_settings true "a,b"
           ["moniker = x"%string; "db_backend = y"%string]).
  repeat constructor.
Defined.

End TxIndexFacts.

(** * The further properties on the sample bucket *)

Section MoreOnSample.
Import Sample.


Lemma Save_then_Get_witness :
  fst (Save Update ∅ [] plain bob emptyStore) = None
  /\ fst (Get plain [x02] (snd (Save Update ∅ [] plain bob emptyStore)))
     = (Some bob, None).
Proof.
  assert (Hnil : fst (Save Update ∅ [] plain bob emptyStore) = None)
    by (vm_compute; reflexivity).
  split; [exact Hnil|].
  assert (Hmar : Marshal bob = inl (str "al")) by reflexivity.
  exact (proj2 (Save_then_Get Indexer Update ∅ [] plain bob (str "al")
                  emptyStore Hmar Hnil)).
Defined.

Lemma Save_keeps_other_keys_witness :
  DBKey acct [x01] <> DBKey acct (Key bob)
  /\ data (snd (Save Update acctHeap ordA acct bob aliceStore))
       !! DBKey acct [x01] = Some (str "al").
Proof.
  assert (Hne : DBKey acct [x01] <> DBKey acct (Key bob)) by discriminate.
  split; [exact Hne|].
  rewrite (Save_keeps_other_keys Indexer Update (DBKey acct [x01]) acctHeap
             ordA acct bob aliceStore).
  - vm_compute; reflexivity.
  - repeat constructor; apply Sample_Update_keeps;
      intros k Heq; vm_compute in Heq; discriminate Heq.
  - exact Hne.
Defined.

Lemma Delete_then_Get_witness :
  fst (Delete Update acctHeap ordA acct [x01] aliceStore) = None
  /\ fst (Get acct [x01] (snd (Delete Update acctHeap ordA acct [x01] aliceStore)))
     = (None, None).
Proof.
  assert (Hnil : fst (Delete Update acctHeap ordA acct [x01] aliceStore) = None)
    by (vm_compute; reflexivity).
  split; [exact Hnil|].
  exact (proj2 (Delete_then_Get Indexer Update acctHeap ordA acct [x01]
                  aliceStore Hnil)).
Defined.

Lemma Save_without_indexes_witness :
  bucketIndexes (∅ : gmap loc (gmap string (Index Indexer))) plain = ∅
  /\ Save Update ∅ [] plain (mkObj [x01] (str "bo")) aliceStore
     = (None, mkStore (<[DBKey plain [x01] := str "bo"]> (data aliceStore))
                      [OpSet (DBKey plain [x01]) (str "bo")]).
Proof.
  split; [reflexivity|].
  exact (Save_without_indexes Indexer Update ∅ [] plain
           (mkObj [x01] (str "bo")) (str "bo") aliceStore
           eq_refl eq_refl eq_refl).
Defined.

Lemma undecodable_record_blocks_writes_witness :
  data corruptStore !! DBKey acct [x01] = Some (str "alice")
  /\ Delete Update acctHeap ordA acct [x01] corruptStore
     = (Some "malformed record"%string,
        mkStore (data corruptStore) [OpGet (DBKey acct [x01])])
  /\ Save Update acctHeap ordA acct (mkObj [x01] (str "al")) corruptStore
     = (Some "malformed record"%string,
        mkStore (data corruptStore) [OpGet (DBKey acct [x01])]).
Proof.
  assert (Hrec : data corruptStore !! DBKey acct [x01] = Some (str "alice"))
    by (vm_compute; reflexivity).
  assert (Hsome : bucketIndexes acctHeap acct <> ∅).
  { intros Heq. apply (f_equal (fun m => m !! "name"%string)) in Heq.
    vm_compute in Heq. discriminate Heq. }
  assert (Hbad : Unmarshal (Clone (proto acct)) (str "alice")
                 = inr "malformed record"%string) by reflexivity.
  destruct (undecodable_record_blocks_writes Indexer Update acctHeap ordA acct
              [x01] (str "alice") "malformed record"%string corruptStore
              Hsome Hrec Hbad) as [Hdel Hsave].
  split; [exact Hrec|]. split; [exact Hdel|].
  apply (Hsave (mkObj [x01] (str "al")) (str "al")); reflexivity.
Defined.

(** The stricter sample index, too, writes under its own name only. *)
Lemma Sample_strictUpdate_keeps (idx : Index Indexer) (K : bytes) :
  (forall k, indexKey idx k <> K) -> keepsKey strictUpdate K idx.
Proof.
  intros Hne prev model st.
  pose proof (Sample_Update_keeps idx K Hne prev model st) as Hupd.
  destruct prev as [p|], model as [m|]; try exact Hupd.
  unfold strictUpdate, bind, kvGet. simpl.
  destruct (data st !! indexKey idx (indexer idx p)); simpl; [|reflexivity].
  apply lookup_delete_ne, Hne.
Qed.

Lemma Delete_index_failure_witness :
  fst (Delete strictUpdate acctHeap ordA acct [x01] halfIndexedStore)
  = Some "index entry missing"%string
  /\ data (snd (Delete strictUpdate acctHeap ordA acct [x01] halfIndexedStore))
       !! DBKey acct [x01] = Some (str "al")
  /\ data halfIndexedStore !! (str "acct_self:" ++ [x01]) = Some [x01]
  /\ data (snd (Delete strictUpdate acctHeap ordA acct [x01] halfIndexedStore))
       !! (str "acct_self:" ++ [x01]) = None.
Proof.
  set (dbG := snd (Get acct [x01] halfIndexedStore)).
  set (prev := Some (mkObj [x01] (str "al"))).
  set (db1 := snd (rangeUpdate strictUpdate [("self"%string, selfIndex)]
                     prev None dbG)).
  set (db2 := snd (strictUpdate nameIndex prev None db1)).
  assert (Hkeep : Forall (fun p => keepsKey strictUpdate (DBKey acct [x01]) p.2)
                    ordA).
  { repeat constructor; apply Sample_strictUpdate_keeps;
      intros k Heq; vm_compute in Heq; discriminate Heq. }
  destruct (Delete_index_failure Indexer strictUpdate acctHeap acct [x01]
              ordA [("self"%string, selfIndex)] "name"%string nameIndex []
              prev halfIndexedStore dbG db1 db2 "index entry missing"%string)
    as [Hdel Hprim]; try (vm_compute; reflexivity); [exact Hkeep|].
  rewrite Hdel. simpl fst. simpl snd. split; [reflexivity|].
  split; [rewrite Hprim; vm_compute; reflexivity|].
  split; vm_compute; reflexivity.
Defined.

Lemma unknown_index_is_an_error_witness :
  bucketIndexes acctHeap acct !! "kind"%string = None
  /\ GetIndexed GetAt acctHeap acct "kind" (str "al") aliceStore
     = (([], Some "No such index: kind"%string), aliceStore)
  /\ GetIndexedLike GetLike acctHeap acct "kind" bob aliceStore
     = (([], Some "No such index: kind"%string), aliceStore).
Proof.
  assert (Hnone : bucketIndexes acctHeap acct !! "kind"%string = None)
    by (vm_compute; reflexivity).
  split; [exact Hnone|].
  exact (unknown_index_is_an_error Indexer GetAt GetLike acctHeap acct "kind"
           (str "al") bob aliceStore Hnone).
Defined.

Lemma readRefs_stops_at_undecodable_witness :
  data corruptStore !! DBKey acct [x01] = Some (str "alice")
  /\ readRefs acct [[x09]; [x01]; [x02]] corruptStore
     = (([], Some "malformed record"%string),
        mkStore (data corruptStore)
          [OpGet (DBKey acct [x01]); OpGet (DBKey acct [x09])]).
Proof.
  assert (Hrec : data corruptStore !! DBKey acct [x01] = Some (str "alice"))
    by (vm_compute; reflexivity).
  split; [exact Hrec|].
  apply (readRefs_stops_at_undecodable acct [[x09]] [x01] [[x02]]
           (str "alice") "malformed record"%string corruptStore).
  - repeat constructor.
  - exact Hrec.
  - reflexivity.
Defined.

Lemma WithIndex_twice_panics_witness :
  exists b' h',
    WithIndex ordA acct "kind" ovalue false acctHeap = Ok (b', h')
    /\ panics (WithIndex [] b' "kind" okey true h').
Proof.
  destruct (WithIndex ordA acct "kind" ovalue false acctHeap)
    as [[b' h']|msg] eqn:Hok.
  - exists b', h'. split; [reflexivity|].
    exact (WithIndex_twice_panics Indexer ordA acct "kind" ovalue false
             acctHeap b' h' [] okey true Hok).
  - vm_compute in Hok. discriminate Hok.
Defined.

Lemma WithIndex_chain_witness :
  exists b1 h1 b2 h2,
    WithIndex [] plain "self" okey true ∅ = Ok (b1, h1)
    /\ WithIndex [("self"%string, selfIndex)] b1 "name" ovalue true h1
       = Ok (b2, h2)
    /\ bucketIndexes h2 b2 !! "self"%string = Some selfIndex
    /\ bucketIndexes h2 b2 !! "name"%string = Some nameIndex.
Proof.
  destruct (WithIndex [] plain "self" okey true ∅) as [[b1 h1]|msg] eqn:Hok1;
    [|vm_compute in Hok1; discriminate Hok1].
  assert (Hperm1 : [("self"%string, selfIndex)]
                   ≡ₚ map_to_list (bucketIndexes h1 b1)).
  { vm_compute in Hok1. injection Hok1 as <- <-. vm_compute. reflexivity. }
  destruct (WithIndex_chain Indexer [] [("self"%string, selfIndex)] plain
              "self" "name" okey ovalue true true ∅ b1 h1)
    as (b2 & h2 & Hok2 & Hself & Hname);
    [discriminate|reflexivity|vm_compute; reflexivity|exact Hok1|exact Hperm1|].
  exists b1, h1, b2, h2. auto.
Defined.

Lemma WithIndex_then_GetIndexed_witness :
  exists b' h',
    WithIndex ordA acct "kind" ovalue false acctHeap = Ok (b', h')
    /\ GetIndexed GetAt h' b' "kind" (str "al") aliceStore
       = readRefs acct [] (snd (GetAt (NewIndex "acct_kind" ovalue false)
                                  (str "al") aliceStore))
    /\ GetIndexed GetAt h' acct "kind" (str "al") aliceStore
       = (([], Some "No such index: kind"%string), aliceStore).
Proof.
  destruct (WithIndex ordA acct "kind" ovalue false acctHeap)
    as [[b' h']|msg] eqn:Hok; [|vm_compute in Hok; discriminate Hok].
  assert (Halloc : allocated acctHeap acct).
  { intros l [= <-]. apply elem_of_dom. exists acctIndexes.
    vm_compute; reflexivity. }
  exists b', h'. split; [reflexivity|].
  apply (WithIndex_then_GetIndexed Indexer GetAt ordA acct "kind" ovalue false
           acctHeap b' h' (str "al") aliceStore [] _ Halloc Hok).
  vm_compute; reflexivity.
Defined.

Lemma Put_ignores_height_witness :
  LastModified.Bind GetHeight (LastModified.WithLastModified _ _ _ baseBucket)
    (Some 3)
  = Ok (LastModified.mkBound 3 baseBucket)
  /\ LastModified.Bind GetHeight
       (LastModified.WithLastModified _ _ _ baseBucket) (Some 8)
     = Ok (LastModified.mkBound 8 baseBucket)
  /\ LastModified.Put metadator showMeta (LastModified.mkBound 3 baseBucket)
       [x01] (mkChannel None (str "memo")) (LastModified.mkWorld emptyStore [])
     = LastModified.Put metadator showMeta (LastModified.mkBound 8 baseBucket)
         [x01] (mkChannel None (str "memo"))
         (LastModified.mkWorld emptyStore []).
Proof.
  split; [reflexivity|]. split; [reflexivity|].
  apply (LastModifiedMoreFacts.Put_ignores_height Context Channel (list Channel)
           Metadata unit GetHeight metadator showMeta
           (LastModified.WithLastModified _ _ _ baseBucket) (Some 3) (Some 8));
    reflexivity.
Defined.

End MoreOnSample.
